(** * The caffe2 -> c10 calling-convention bridge

    A shallow embedding of [caffe2/core/c10_operator.h]: the schema builder
    [make_function_schema_for_c10], the generic invoker [_call_caffe2_op],
    the shared stack adapter [_call_caffe2_op_from_c10] and the templated
    kernel entry point [call_caffe2_op_from_c10], followed by the properties
    of the bridge.

    Conventions.
    - A [std::vector] is a [list] whose head is element 0; the top of the
      call stack is therefore the LAST element of the list ([back()]).
    - A tensor is a handle: either the undefined tensor that [at::Tensor()]
      default-constructs, or a reference to some tensor implementation.
      Tensor contents are not modelled.
    - The header mutates [*stack] in place; here the stack is threaded through
      a state-and-failure monad [M].  The monad state also carries a ghost
      log of the calls made through the [call_op] function pointer, so that
      "the operator received X" and "the operator was never invoked" can be
      stated.  The log is never read by the modelled code. *)

From Stdlib Require Import String List Bool Arith ZArith Lia.
Import ListNotations.
Open Scope string_scope.
Open Scope list_scope.
Open Scope nat_scope.

(** ** Values and types of the dispatcher *)

(** [at::Tensor]: a handle, possibly undefined. *)
Inductive Tensor : Type :=
| UndefinedTensor
| TensorImpl (id : nat).

(** [c10::Type], as far as the header names it ([TensorType], [IntType],
    [FloatType], [ListType::ofTensors()], [OptionalType::create]). *)
Inductive TypePtr : Type :=
| TensorType
| IntType
| FloatType
| BoolType
| StringType
| ListType (elem : TypePtr)
| OptionalType (elem : TypePtr).

Module ListTypeNS.
(** [ListType::ofTensors()] *)
Definition ofTensors : TypePtr := ListType TensorType.
End ListTypeNS.

Module OptionalTypeNS.
(** [OptionalType::create(t)] *)
Definition create (t : TypePtr) : TypePtr := OptionalType t.
End OptionalTypeNS.

(** [c10::IValue]: the type-erased value that lives on the stack.  The
    default-constructed [IValue()] is [IVNone]. *)
Inductive IValue : Type :=
| IVNone
| IVTensor (t : Tensor)
| IVInt (i : Z)
| IVBool (b : bool)
| IVString (s : string)
| IVIntList (l : list Z)
| IVTensorList (l : list Tensor).

Definition isNone (v : IValue) : bool :=
  match v with IVNone => true | _ => false end.

Definition isTensorList (v : IValue) : bool :=
  match v with IVTensorList _ => true | _ => false end.

(** The elements of [v.toTensorList()], moved out.  Only reached
    behind [AT_ASSERT(v.isTensorList())]; the other branch is never used. *)
Definition toTensorList_elements (v : IValue) : list Tensor :=
  match v with IVTensorList l => l | _ => [] end.

(** [c10::Argument], with the four constructor arguments the header passes:
    name, type, the optional list size [N] and the optional default value. *)
Module Argument.
Record t : Type := mk
  { name : string;
    type : TypePtr;
    N : option nat;
    default_value : option IValue }.
End Argument.

(** [c10::FunctionSchema], with the four constructor arguments the header
    passes: name, overload name, arguments and returns. *)
Module FunctionSchema.
Record t : Type := mk
  { name : string;
    overload_name : string;
    arguments : list Argument.t;
    returns : list Argument.t }.
End FunctionSchema.

(** [c10::OperatorHandle]: all the header asks of it is [schema()]. *)
Module OperatorHandle.
Record t : Type := mk { schema : FunctionSchema.t }.
End OperatorHandle.

(** [c10::KernelCache]: opaque per-kernel state. *)
Inductive KernelCache : Type :=
| KernelCacheState (payload : nat).

(** [c10::Stack] is [std::vector<IValue>]; the top is the last element. *)
Definition Stack : Type := list IValue.

(** What a failing operator raises (the message of the C++ exception). *)
Definition Error : Type := string.

(** ** std::vector helpers *)

(** [v.back()], defined only on a non-empty vector. *)
Definition back {A : Type} (v : list A) : option A :=
  match v with
  | [] => None
  | x :: v' => Some (last v' x)
  end.

(** [v.resize(n)] for a vector of tensors: truncate, or pad with
    default-constructed (undefined) tensors. *)
Definition resize (v : list Tensor) (n : nat) : list Tensor :=
  firstn n v ++ repeat UndefinedTensor (n - length v).

(** ** The state-and-failure monad *)

(** One call through the [call_op] function pointer: the three arguments
    it was given. *)
Record Invocation : Type := mkInvocation
  { inv_schema : FunctionSchema.t;
    inv_inputs : list IValue;
    inv_outputs : list Tensor }.

Record Machine : Type := mkMachine
  { stack : Stack;
    invocations : list Invocation (* ghost *) }.

(** How a call ends.  [AssertFailed] is a failing [AT_ASSERT]; [Threw e] is
    an exception raised by the operator; [Undefined] marks C++ undefined
    behaviour (reading past the bottom of the stack vector), after which the
    model promises nothing. *)
Inductive Outcome (A : Type) : Type :=
| Returned (a : A)
| AssertFailed
| Threw (e : Error)
| Undefined.

Arguments Returned {A} a.
Arguments AssertFailed {A}.
Arguments Threw {A} e.
Arguments Undefined {A}.

(** A computation returns an outcome together with the machine as it stands
    when the computation ends or fails. *)
Definition M (A : Type) : Type := Machine -> Outcome A * Machine.

Definition ret {A : Type} (a : A) : M A := fun s => (Returned a, s).

Definition bind {A B : Type} (c : M A) (k : A -> M B) : M B :=
  fun s =>
    match c s with
    | (Returned a, s') => k a s'
    | (AssertFailed, s') => (AssertFailed, s')
    | (Threw e, s') => (Threw e, s')
    | (Undefined, s') => (Undefined, s')
    end.

Declare Scope bridge_scope.
Delimit Scope bridge_scope with bridge.
Notation "x <- c1 ;; c2" := (bind c1 (fun x => c2))
  (at level 100, c1 at next level, right associativity) : bridge_scope.
Notation "c1 ;;; c2" := (bind c1 (fun _ => c2))
  (at level 100, right associativity) : bridge_scope.
Open Scope bridge_scope.

(** [AT_ASSERT(cond)] *)
Definition AT_ASSERT (cond : bool) : M unit :=
  fun s => if cond then (Returned tt, s) else (AssertFailed, s).

(** ** The stack interface ([torch::jit::pop], [torch::jit::push]) *)

(** Modelled from the spec: [torch::jit::pop(Stack&)] is declared outside
    this header.  The spec's stack interface removes and returns the value
    on top of the stack.  An empty vector has no [back()]: undefined. *)
Definition pop : M IValue :=
  fun s =>
    match back (stack s) with
    | None => (Undefined, s)
    | Some v =>
        (Returned v,
         mkMachine (removelast (stack s)) (invocations s))
    end.

(** Modelled from the spec: [torch::jit::pop(Stack&, size_t n)] is declared
    outside this header.  The spec's [pop(n)] removes the top [n] values and
    returns them in order, oldest first.  With fewer than [n] values on the
    stack the read runs past the vector: undefined. *)
Definition pop_n (n : nat) : M (list IValue) :=
  fun s =>
    if length (stack s) <? n then (Undefined, s)
    else
      let keep := length (stack s) - n in
      (Returned (skipn keep (stack s)),
       mkMachine (firstn keep (stack s)) (invocations s)).

(** Modelled from the spec: [torch::jit::push(Stack&, IValue)] is declared
    outside this header.  The spec's [push(value)] puts one value on top. *)
Definition push (v : IValue) : M unit :=
  fun s => (Returned tt, mkMachine (stack s ++ [v]) (invocations s)).

(** ** The legacy operator *)

(** What the template parameter [Caffe2Operator] must provide: a constructor
    from (schema, inputs, outputs), [Run()] and [move_newstyle_outputs()].
    The constructor and [Run] may raise. *)
Class Caffe2Operator (Op : Type) : Type :=
  { construct : FunctionSchema.t -> list IValue -> list Tensor -> Error + Op;
    Run : Op -> Error + Op;
    move_newstyle_outputs : Op -> list Tensor }.

(** The function type [_CallCaffe2OpFunc].  The function is not handed the
    stack; it returns the output vector or raises. *)
Definition _CallCaffe2OpFunc : Type :=
  FunctionSchema.t -> list IValue -> list Tensor -> Error + list Tensor.

(** [_call_caffe2_op<Caffe2Operator>] *)
Definition _call_caffe2_op (Op : Type) `{Caffe2Operator Op} : _CallCaffe2OpFunc :=
  fun schema inputs outputs =>
    match construct schema inputs outputs with
    | inl e => inl e
    | inr op =>
        match Run op with
        | inl e => inl e
        | inr op' => inr (move_newstyle_outputs op')
        end
    end.

(** The call through the [call_op] pointer, with arguments
    [schema, std::move(inputs), std::move(outputs)]: the call is recorded in
    the ghost log, then made. *)
Definition invoke (call_op : _CallCaffe2OpFunc) (schema : FunctionSchema.t)
    (inputs : list IValue) (outputs : list Tensor) : M (list Tensor) :=
  fun s =>
    let s' := mkMachine (stack s)
                (invocations s ++ [mkInvocation schema inputs outputs]) in
    match call_op schema inputs outputs with
    | inl e => (Threw e, s')
    | inr outs => (Returned outs, s')
    end.

(** The loop [for (auto&& output : std::move(outputs))] that pushes every
    [output] on the stack.  Each tensor is converted to a tensor [IValue] as it is pushed. *)
Fixpoint push_each (outputs : list Tensor) : M unit :=
  match outputs with
  | [] => ret tt
  | output :: rest => push (IVTensor output) ;;; push_each rest
  end.

(** ** The header's definitions *)

Definition PREALLOCATED_OUTPUT_ARGNAME : string :=
  "_caffe2_preallocated_outputs".

Section Bridge.

(** [Type::isSubtypeOf] is declared outside this header; the adapter is
    modelled for an arbitrary such test. *)
Variable isSubtypeOf : TypePtr -> TypePtr -> bool.

(** The condition of the first [AT_ASSERT].  [&&] does not evaluate
    [back()] on an empty argument list. *)
Definition schema_accepts_preallocated (schema : FunctionSchema.t) : bool :=
  negb (length (FunctionSchema.arguments schema) =? 0) &&
  match back (FunctionSchema.arguments schema) with
  | Some a =>
      isSubtypeOf (Argument.type a)
        (OptionalTypeNS.create ListTypeNS.ofTensors)
  | None => false
  end.

(** [_call_caffe2_op_from_c10].  [num_inputs] is a [size_t] difference
    that cannot wrap: the first assertion has excluded an empty argument
    list. *)
Definition _call_caffe2_op_from_c10
    (schema : FunctionSchema.t) (call_op : _CallCaffe2OpFunc) : M unit :=
  AT_ASSERT (schema_accepts_preallocated schema) ;;;
  preallocated_outputs <- pop ;;
  let num_outputs := length (FunctionSchema.returns schema) in
  let num_inputs := length (FunctionSchema.arguments schema) - 1 in
  outputs <-
    (if isNone preallocated_outputs
     then ret (resize [] num_outputs)
     else
       AT_ASSERT (isTensorList preallocated_outputs) ;;;
       ret (toTensorList_elements preallocated_outputs)) ;;
  inputs <- pop_n num_inputs ;;
  outputs <- invoke call_op schema inputs outputs ;;
  push_each outputs.

(** [call_caffe2_op_from_c10<OpHandle, Caffe2Operator>(stack, cache)] *)
Definition call_caffe2_op_from_c10
    (OpHandle : unit -> OperatorHandle.t)
    (Op : Type) `{Caffe2Operator Op}
    (cache : KernelCache) : M unit :=
  _call_caffe2_op_from_c10
    (OperatorHandle.schema (OpHandle tt)) (_call_caffe2_op Op).

End Bridge.

(** [make_function_schema_for_c10].  [emplace_back] appends the synthetic
    argument, built from the reserved name, the optional tensor-list type,
    [nullopt] for [N], and [IValue()] (the None value) as default value. *)
Definition make_function_schema_for_c10 (OperatorName : string)
    (inputs outputs : list Argument.t) : FunctionSchema.t :=
  let actual_inputs :=
    inputs ++
    [Argument.mk
       PREALLOCATED_OUTPUT_ARGNAME
       (OptionalTypeNS.create ListTypeNS.ofTensors)
       None
       (Some IVNone)] in
  FunctionSchema.mk
    ("_caffe2::" ++ OperatorName)%string
    ""
    actual_inputs
    outputs.

(** ** Derived notions used by the statements *)

(** The output vector that the adapter builds from a popped value that is
    None or a tensor list (the [if]/[else] on [preallocated_outputs]). *)
Definition output_buffer_set (schema : FunctionSchema.t) (v : IValue)
    : list Tensor :=
  if isNone v
  then resize [] (length (FunctionSchema.returns schema))
  else toTensorList_elements v.

(** The synthetic trailing argument that the schema builder appends. *)
Definition preallocated_outputs_argument : Argument.t :=
  Argument.mk
    PREALLOCATED_OUTPUT_ARGNAME
    (OptionalTypeNS.create ListTypeNS.ofTensors)
    None
    (Some IVNone).

(** A machine whose stack has the values [below] under those of [s]: the
    same call made deeper in a stack that other code is using. *)
Definition frame (below : Stack) (s : Machine) : Machine :=
  mkMachine (below ++ stack s) (invocations s).

(** How many descriptors of a list carry a given name. *)
Definition count_named (n : string) (args : list Argument.t) : nat :=
  length (filter (fun a => String.eqb (Argument.name a) n) args).

(** ** Concrete instances for the examples *)

(** Structural equality of types: the narrowest type test, which accepts a
    type only when it is the expected type itself. *)
Fixpoint exact_type_test (a b : TypePtr) : bool :=
  match a, b with
  | TensorType, TensorType => true
  | IntType, IntType => true
  | FloatType, FloatType => true
  | BoolType, BoolType => true
  | StringType, StringType => true
  | ListType a', ListType b' => exact_type_test a' b'
  | OptionalType a', OptionalType b' => exact_type_test a' b'
  | _, _ => false
  end.

Definition arg_A : Argument.t := Argument.mk "A" TensorType None None.
Definition arg_B : Argument.t := Argument.mk "B" IntType None None.
Definition arg_C : Argument.t := Argument.mk "C" TensorType None None.

(** Inputs [A: tensor, B: int], output [C: tensor], built by the builder. *)
Definition example_schema : FunctionSchema.t :=
  make_function_schema_for_c10 "Op" [arg_A; arg_B] [arg_C].

(** The same signature assembled by hand, without the synthetic argument. *)
Definition misregistered_schema : FunctionSchema.t :=
  FunctionSchema.mk "_caffe2::Op" "" [arg_A; arg_B] [arg_C].

(** A type test with optional subtyping: a type is accepted against itself
    and against its own optional, [T <: Optional[T]]. *)
Definition optional_lifting_type_test (a b : TypePtr) : bool :=
  exact_type_test a b ||
  match b with
  | OptionalType b' => exact_type_test a b'
  | _ => false
  end.

Definition arg_L : Argument.t :=
  Argument.mk "outs" (ListType TensorType) None None.

(** A signature assembled by hand whose last parameter is a plain list of
    tensors, not an optional one. *)
Definition list_tailed_schema : FunctionSchema.t :=
  FunctionSchema.mk "_caffe2::Op" "" [arg_A; arg_L] [arg_C].

Definition tensor1 : Tensor := TensorImpl 1.
Definition tensor2 : Tensor := TensorImpl 2.
Definition tensor3 : Tensor := TensorImpl 3.
Definition bufX : Tensor := TensorImpl 24.

(** An operator that writes into the output buffers it was given and
    returns them. *)
Record InPlaceOp : Type := mkInPlaceOp
  { ipo_inputs : list IValue;
    ipo_outputs : list Tensor }.

#[export] Instance InPlaceOp_operator : Caffe2Operator InPlaceOp :=
  { construct := fun _ inputs outputs => inr (mkInPlaceOp inputs outputs);
    Run := fun op => inr op;
    move_newstyle_outputs := ipo_outputs }.

(** An invoker that returns one fresh tensor, whatever it is given. *)
Definition fresh_result_op : _CallCaffe2OpFunc :=
  fun _ _ _ => inr [tensor2].

(** An invoker that returns two tensors, whatever the schema declares. *)
Definition overproducing_op : _CallCaffe2OpFunc :=
  fun _ _ _ => inr [tensor2; tensor3].

(** An invoker that returns no tensor at all. *)
Definition underproducing_op : _CallCaffe2OpFunc :=
  fun _ _ _ => inr [].

(** ** Stack lemmas *)

Lemma back_app_last {A : Type} (l : list A) (x : A) :
  back (l ++ [x]) = Some x.
Proof.
  destruct l as [|a l]; simpl; [reflexivity|].
  now rewrite last_last.
Qed.

Lemma back_None_nil {A : Type} (l : list A) : back l = None -> l = [].
Proof. destruct l; [reflexivity | discriminate]. Qed.

Lemma last_cons_default {A : Type} (l : list A) :
  forall a b : A, last (b :: l) a = last l b.
Proof.
  induction l as [|c l IH]; intros a b; [reflexivity|].
  change (last (c :: l) a = last (c :: l) b).
  now rewrite !IH.
Qed.

Lemma back_Some_app {A : Type} (l : list A) (x : A) :
  back l = Some x -> l = removelast l ++ [x].
Proof.
  destruct l as [|a l]; [discriminate|].
  intros H. injection H as <-.
  rewrite <- (last_cons_default l a a).
  apply app_removelast_last. discriminate.
Qed.

Lemma pop_top (rest : Stack) (v : IValue) (log : list Invocation) :
  pop (mkMachine (rest ++ [v]) log) = (Returned v, mkMachine rest log).
Proof.
  unfold pop; simpl.
  now rewrite back_app_last, removelast_last.
Qed.

Lemma pop_n_top (rest inputs : Stack) (log : list Invocation) :
  pop_n (length inputs) (mkMachine (rest ++ inputs) log)
  = (Returned inputs, mkMachine rest log).
Proof.
  unfold pop_n; simpl.
  rewrite length_app.
  replace (length rest + length inputs <? length inputs) with false
    by (symmetry; apply Nat.ltb_ge; lia).
  replace (length rest + length inputs - length inputs) with (length rest)
    by lia.
  rewrite skipn_app, firstn_app, skipn_all, firstn_all, Nat.sub_diag.
  simpl. now rewrite app_nil_r.
Qed.

Lemma push_each_appends (outs : list Tensor) :
  forall (st : Stack) (log : list Invocation),
    push_each outs (mkMachine st log)
    = (Returned tt, mkMachine (st ++ map IVTensor outs) log).
Proof.
  induction outs as [|o outs IH]; intros st log; simpl.
  - unfold ret. now rewrite app_nil_r.
  - unfold bind, push; simpl. rewrite IH.
    now rewrite <- app_assoc.
Qed.

Lemma resize_nil (n : nat) : resize [] n = repeat UndefinedTensor n.
Proof.
  unfold resize. rewrite firstn_nil. simpl. now rewrite Nat.sub_0_r.
Qed.

(** ** The adapter, step by step *)

Section AdapterSteps.

Variable isSubtypeOf : TypePtr -> TypePtr -> bool.

Local Abbreviation adapter := (_call_caffe2_op_from_c10 isSubtypeOf).
Local Abbreviation accepts := (schema_accepts_preallocated isSubtypeOf).

Lemma accepts_nonempty (schema : FunctionSchema.t) :
  accepts schema = true -> FunctionSchema.arguments schema <> [].
Proof.
  unfold schema_accepts_preallocated. intros H Hnil.
  rewrite Hnil in H. discriminate.
Qed.

Lemma accepts_iff (schema : FunctionSchema.t) :
  accepts schema = true <->
  exists a, back (FunctionSchema.arguments schema) = Some a /\
            isSubtypeOf (Argument.type a) (OptionalType (ListType TensorType))
            = true.
Proof.
  unfold schema_accepts_preallocated, OptionalTypeNS.create,
    ListTypeNS.ofTensors.
  destruct (FunctionSchema.arguments schema) as [|a l]; simpl.
  - split; [discriminate | intros (a & H & _); discriminate].
  - split.
    + intros H. eexists. split; [reflexivity | exact H].
    + intros (a' & H & Ht). injection H as <-. exact Ht.
Qed.

(** A rejected schema: the first assertion fires and nothing is touched. *)
Lemma adapter_rejects (schema : FunctionSchema.t)
    (call_op : _CallCaffe2OpFunc) (s : Machine) :
  accepts schema = false ->
  adapter schema call_op s = (AssertFailed, s).
Proof.
  intros H. unfold _call_caffe2_op_from_c10, bind, AT_ASSERT.
  now rewrite H.
Qed.

(** A popped value that is neither None nor a tensor list: the second
    assertion fires right after the pop. *)
Lemma adapter_type_mismatch (schema : FunctionSchema.t)
    (call_op : _CallCaffe2OpFunc) (rest : Stack) (v : IValue)
    (log : list Invocation) :
  accepts schema = true ->
  isNone v = false ->
  isTensorList v = false ->
  adapter schema call_op (mkMachine (rest ++ [v]) log)
  = (AssertFailed, mkMachine rest log).
Proof.
  intros Ha Hn Ht. unfold _call_caffe2_op_from_c10, bind at 1, AT_ASSERT.
  rewrite Ha. unfold bind at 1. rewrite pop_top.
  unfold bind. now rewrite Hn, Ht.
Qed.

(** A call that passes both assertions on a stack that holds every
    argument: the operator is invoked once, on the values below the top. *)
Lemma adapter_runs (schema : FunctionSchema.t)
    (call_op : _CallCaffe2OpFunc) (rest inputs : Stack) (v : IValue)
    (log : list Invocation) :
  accepts schema = true ->
  length inputs = length (FunctionSchema.arguments schema) - 1 ->
  isNone v || isTensorList v = true ->
  adapter schema call_op (mkMachine (rest ++ inputs ++ [v]) log)
  = let log' :=
      log ++ [mkInvocation schema inputs (output_buffer_set schema v)] in
    match call_op schema inputs (output_buffer_set schema v) with
    | inl e => (Threw e, mkMachine rest log')
    | inr outs => (Returned tt, mkMachine (rest ++ map IVTensor outs) log')
    end.
Proof.
  intros Ha Hlen Hv. unfold _call_caffe2_op_from_c10, bind at 1, AT_ASSERT.
  rewrite Ha. unfold bind at 1.
  rewrite app_assoc, pop_top. rewrite <- Hlen.
  unfold output_buffer_set.
  destruct (isNone v) eqn:Hn.
  - unfold bind at 1, ret. unfold bind at 1. rewrite pop_n_top.
    unfold bind, invoke; simpl.
    destruct (call_op schema inputs _) as [e|outs]; [reflexivity|].
    now rewrite push_each_appends.
  - simpl in Hv. unfold bind at 1. unfold bind at 1, AT_ASSERT.
    rewrite Hv. unfold ret. unfold bind at 1. rewrite pop_n_top.
    unfold bind, invoke; simpl.
    destruct (call_op schema inputs _) as [e|outs]; [reflexivity|].
    now rewrite push_each_appends.
Qed.

(** With an empty stack the first pop has nothing to read. *)
Lemma adapter_empty_stack (schema : FunctionSchema.t)
    (call_op : _CallCaffe2OpFunc) (log : list Invocation) :
  accepts schema = true ->
  adapter schema call_op (mkMachine [] log) = (Undefined, mkMachine [] log).
Proof.
  intros Ha. unfold _call_caffe2_op_from_c10, bind at 1, AT_ASSERT.
  now rewrite Ha.
Qed.

(** With fewer inputs on the stack than the schema declares, the second pop
    reads past the bottom of the vector. *)
Lemma adapter_short_stack (schema : FunctionSchema.t)
    (call_op : _CallCaffe2OpFunc) (rest : Stack) (v : IValue)
    (log : list Invocation) :
  accepts schema = true ->
  isNone v || isTensorList v = true ->
  length rest < length (FunctionSchema.arguments schema) - 1 ->
  adapter schema call_op (mkMachine (rest ++ [v]) log)
  = (Undefined, mkMachine rest log).
Proof.
  intros Ha Hv Hlt. unfold _call_caffe2_op_from_c10, bind at 1, AT_ASSERT.
  rewrite Ha. unfold bind at 1. rewrite pop_top.
  apply Nat.ltb_lt in Hlt.
  destruct (isNone v) eqn:Hn.
  - unfold bind at 1, ret. unfold bind, pop_n; simpl. now rewrite Hlt.
  - simpl in Hv. unfold bind at 1. unfold bind at 1, AT_ASSERT.
    rewrite Hv. unfold ret. unfold bind, pop_n; simpl. now rewrite Hlt.
Qed.

End AdapterSteps.

(** ** Properties of the schema builder *)

(** C2. For every operator name and every input and output descriptor list
    (empty lists included), the builder returns a signature whose parameter
    list is the input list followed by exactly one synthetic parameter: its
    name is the reserved constant "_caffe2_preallocated_outputs", its type
    is optional list of tensors, it has no list size and its default value
    is the None value.  The result list is the given output list, and the
    operator name is "_caffe2::" joined with the given name (the overload
    name is empty). *)
Theorem C2_schema_builder_appends_synthetic_parameter :
  forall (OperatorName : string) (inputs outputs : list Argument.t),
    let schema := make_function_schema_for_c10 OperatorName inputs outputs in
    FunctionSchema.arguments schema = inputs ++ [preallocated_outputs_argument]
    /\ length (FunctionSchema.arguments schema) = length inputs + 1
    /\ back (FunctionSchema.arguments schema)
       = Some preallocated_outputs_argument
    /\ Argument.name preallocated_outputs_argument
       = "_caffe2_preallocated_outputs"
    /\ Argument.type preallocated_outputs_argument
       = OptionalType (ListType TensorType)
    /\ Argument.N preallocated_outputs_argument = None
    /\ Argument.default_value preallocated_outputs_argument = Some IVNone
    /\ FunctionSchema.returns schema = outputs
    /\ FunctionSchema.name schema = ("_caffe2::" ++ OperatorName)%string
    /\ FunctionSchema.overload_name schema = "".
Proof.
  intros OperatorName inputs outputs schema. subst schema.
  unfold make_function_schema_for_c10; simpl.
  fold preallocated_outputs_argument.
  repeat split.
  - rewrite length_app. reflexivity.
  - apply back_app_last.
Qed.

(** ** Properties of the invocation adapter *)

Section BridgeProperties.

Variable isSubtypeOf : TypePtr -> TypePtr -> bool.

Local Abbreviation adapter := (_call_caffe2_op_from_c10 isSubtypeOf).
Local Abbreviation accepts := (schema_accepts_preallocated isSubtypeOf).

(** C1, as amended.  Take a signature with k+1 parameters and m results
    that passes the first assertion, a stack that holds k input values
    under a top value that is None or a tensor list, and an invoker that
    returns normally with exactly m tensors.  Then the call returns, the
    k+1 top values are gone (the top one was taken as the synthetic
    parameter's value, the k under it as the inputs of the one invocation),
    the m returned tensors sit on top of the rest of the stack in the order
    of the returned vector, and the height of the stack has changed by
    m - k - 1. *)
Theorem C1_net_stack_effect :
  forall (schema : FunctionSchema.t) (call_op : _CallCaffe2OpFunc)
         (rest inputs : Stack) (v : IValue) (log : list Invocation)
         (outs : list Tensor) (k m : nat),
    length (FunctionSchema.arguments schema) = k + 1 ->
    length (FunctionSchema.returns schema) = m ->
    accepts schema = true ->
    length inputs = k ->
    isNone v || isTensorList v = true ->
    call_op schema inputs (output_buffer_set schema v) = inr outs ->
    length outs = m ->
    let before := mkMachine (rest ++ inputs ++ [v]) log in
    let r := adapter schema call_op before in
    fst r = Returned tt
    /\ invocations (snd r)
       = log ++ [mkInvocation schema inputs (output_buffer_set schema v)]
    /\ stack (snd r) = rest ++ map IVTensor outs
    /\ length (stack (snd r)) = length rest + m
    /\ (Z.of_nat (length (stack (snd r))) - Z.of_nat (length (stack before))
        = Z.of_nat m - Z.of_nat k - 1)%Z.
Proof.
  intros schema call_op rest inputs v log outs k m Hk Hm Ha Hin Hv Hcall Hout
    before r.
  subst before r.
  rewrite adapter_runs by (try assumption; lia).
  cbv zeta. rewrite Hcall. simpl.
  rewrite !length_app, length_map. simpl.
  repeat split; lia.
Qed.

(** C3, as amended.  For every signature that declares no parameter, or
    whose last parameter's type the subtype test [isSubtypeOf] does not
    accept against optional list of tensors, the adapter fails with an
    assertion on any stack and with any invoker, and leaves the stack (and
    the invocation log) as it found them. *)
Theorem C3_misregistered_schema_asserts :
  forall (schema : FunctionSchema.t),
    (FunctionSchema.arguments schema = [] \/
     exists a, back (FunctionSchema.arguments schema) = Some a /\
               isSubtypeOf (Argument.type a)
                 (OptionalType (ListType TensorType)) = false) ->
    forall (call_op : _CallCaffe2OpFunc) (s : Machine),
      adapter schema call_op s = (AssertFailed, s).
Proof.
  intros schema H call_op s. apply adapter_rejects.
  destruct (accepts schema) eqn:Ha; [|reflexivity].
  destruct H as [Hnil | (a & Hb & Ht)].
  - now apply accepts_nonempty in Ha.
  - apply accepts_iff in Ha. destruct Ha as (a' & Hb' & Ht').
    congruence.
Qed.

(** C5. When the first assertion passes and the value popped for the
    synthetic parameter is neither None nor a tensor list, the call fails
    with an assertion: only the popped value has left the stack, nothing has
    been pushed and the invoker has not been called (the invocation log is
    unchanged). *)
Theorem C5_type_mismatch_asserts :
  forall (schema : FunctionSchema.t) (call_op : _CallCaffe2OpFunc)
         (rest : Stack) (v : IValue) (log : list Invocation),
    accepts schema = true ->
    isNone v = false ->
    isTensorList v = false ->
    adapter schema call_op (mkMachine (rest ++ [v]) log)
    = (AssertFailed, mkMachine rest log).
Proof.
  intros. now apply adapter_type_mismatch.
Qed.

(** C10. For every call that passes both assertions on a stack that holds
    every argument, the values pushed are exactly the tensors of the vector
    the invoker returned, in order, whatever the length of that vector: it
    is not compared with the number of results the schema declares. *)
Theorem C10_pushes_every_returned_tensor :
  forall (schema : FunctionSchema.t) (call_op : _CallCaffe2OpFunc)
         (rest inputs : Stack) (v : IValue) (log : list Invocation)
         (outs : list Tensor),
    accepts schema = true ->
    length inputs = length (FunctionSchema.arguments schema) - 1 ->
    isNone v || isTensorList v = true ->
    call_op schema inputs (output_buffer_set schema v) = inr outs ->
    let r := adapter schema call_op (mkMachine (rest ++ inputs ++ [v]) log) in
    fst r = Returned tt
    /\ stack (snd r) = rest ++ map IVTensor outs
    /\ length (stack (snd r)) = length rest + length outs.
Proof.
  intros schema call_op rest inputs v log outs Ha Hin Hv Hcall r. subst r.
  rewrite adapter_runs by assumption.
  cbv zeta. rewrite Hcall. simpl.
  rewrite length_app, length_map. auto.
Qed.

(** C9. The templated entry point, for any operator type and any schema
    handle, behaves on every machine exactly as the shared adapter applied
    to the handle's schema and the operator type's generic invoker; its
    cache argument does not influence the outcome or the stack. *)
Theorem C9_entry_point_delegates :
  forall (OpHandle : unit -> OperatorHandle.t)
         (Op : Type) (OpImpl : Caffe2Operator Op)
         (cache : KernelCache) (s : Machine),
    call_caffe2_op_from_c10 isSubtypeOf OpHandle Op cache s
    = adapter (OperatorHandle.schema (OpHandle tt)) (_call_caffe2_op Op) s
    /\ forall cache' : KernelCache,
         call_caffe2_op_from_c10 isSubtypeOf OpHandle Op cache' s
         = call_caffe2_op_from_c10 isSubtypeOf OpHandle Op cache s.
Proof.
  intros. split; [reflexivity | intros; reflexivity].
Qed.

(** C4. In a call that passes the first assertion on a stack that holds
    every argument, the output vector handed to the invoker is resolved from
    the popped top value: for None it is a fresh vector of exactly
    [num_outputs] undefined tensors; for a tensor list it is exactly the
    elements of that list, in order, whatever their number. *)
Theorem C4_output_buffer_set_resolution :
  forall (schema : FunctionSchema.t) (call_op : _CallCaffe2OpFunc)
         (rest inputs : Stack) (log : list Invocation),
    accepts schema = true ->
    length inputs = length (FunctionSchema.arguments schema) - 1 ->
    let num_outputs := length (FunctionSchema.returns schema) in
    (let r := adapter schema call_op
                (mkMachine (rest ++ inputs ++ [IVNone]) log) in
     invocations (snd r)
     = log ++ [mkInvocation schema inputs (repeat UndefinedTensor num_outputs)]
     /\ length (repeat UndefinedTensor num_outputs) = num_outputs)
    /\
    (forall tl : list Tensor,
       let r := adapter schema call_op
                  (mkMachine (rest ++ inputs ++ [IVTensorList tl]) log) in
       invocations (snd r) = log ++ [mkInvocation schema inputs tl]).
Proof.
  intros schema call_op rest inputs log Ha Hin num_outputs. split.
  - cbv zeta. rewrite adapter_runs by (try assumption; reflexivity).
    unfold output_buffer_set; simpl. rewrite resize_nil.
    split; [|apply repeat_length].
    now destruct (call_op schema inputs _).
  - intros tl. cbv zeta.
    rewrite adapter_runs by (try assumption; reflexivity).
    unfold output_buffer_set; simpl.
    now destruct (call_op schema inputs tl).
Qed.

(** C6. In a call that passes the first assertion on a stack that holds
    every argument, with a preallocated tensor list of exactly m elements
    (m the declared result count) on top, the operator is constructed once,
    from the schema, the inputs and exactly those m tensors in order; the
    outcome of the call is that of constructing the operator from them,
    running it and pushing the outputs it yields. *)
Theorem C6_preallocated_outputs_reach_constructor :
  forall (Op : Type) (OpImpl : Caffe2Operator Op)
         (schema : FunctionSchema.t) (rest inputs : Stack)
         (tl : list Tensor) (log : list Invocation),
    accepts schema = true ->
    length inputs = length (FunctionSchema.arguments schema) - 1 ->
    length tl = length (FunctionSchema.returns schema) ->
    let r := adapter schema (_call_caffe2_op Op)
               (mkMachine (rest ++ inputs ++ [IVTensorList tl]) log) in
    let log' := log ++ [mkInvocation schema inputs tl] in
    invocations (snd r) = log'
    /\ r = match construct schema inputs tl with
           | inl e => (Threw e, mkMachine rest log')
           | inr op =>
               match Run op with
               | inl e => (Threw e, mkMachine rest log')
               | inr op' =>
                   (Returned tt,
                    mkMachine
                      (rest ++ map IVTensor (move_newstyle_outputs op')) log')
               end
           end.
Proof.
  intros Op OpImpl schema rest inputs tl log Ha Hin Hm. cbv zeta.
  rewrite adapter_runs by (try assumption; reflexivity).
  unfold output_buffer_set, _call_caffe2_op; simpl.
  destruct (construct schema inputs tl) as [e|op]; [now split|].
  destruct (Run op) as [e|op']; now split.
Qed.

(** C7. Every call ends in one of four ways.  It returns: then one
    invocation was made, it returned normally, and all the tensors it
    returned have been pushed over what the pops left of the stack.  It
    fails an assertion: then nothing has been pushed (the stack is as it
    was, or has lost only its top value) and the invoker has not been
    called.  The invoker raises: then the very same error is the outcome,
    one invocation was made and not repeated, and nothing has been pushed
    over what the pops left of the stack.  Or the stack was shorter than
    the parameter list, which the header leaves undefined. *)
Theorem C7_outputs_all_or_nothing :
  forall (schema : FunctionSchema.t) (call_op : _CallCaffe2OpFunc)
         (s : Machine),
    let r := adapter schema call_op s in
    match fst r with
    | Returned _ =>
        exists rest inputs v outs,
          stack s = rest ++ inputs ++ [v]
          /\ call_op schema inputs (output_buffer_set schema v) = inr outs
          /\ stack (snd r) = rest ++ map IVTensor outs
          /\ invocations (snd r)
             = invocations s
               ++ [mkInvocation schema inputs (output_buffer_set schema v)]
    | AssertFailed =>
        invocations (snd r) = invocations s
        /\ (stack (snd r) = stack s \/
            exists v, stack s = stack (snd r) ++ [v])
    | Threw e =>
        exists rest inputs v,
          stack s = rest ++ inputs ++ [v]
          /\ call_op schema inputs (output_buffer_set schema v) = inl e
          /\ stack (snd r) = rest
          /\ invocations (snd r)
             = invocations s
               ++ [mkInvocation schema inputs (output_buffer_set schema v)]
    | Undefined =>
        length (stack s) < length (FunctionSchema.arguments schema)
    end.
Proof.
  intros schema call_op [st log]. cbv zeta.
  destruct (accepts schema) eqn:Ha.
  2:{ rewrite adapter_rejects by assumption. simpl. auto. }
  pose proof (accepts_nonempty _ _ Ha) as Hne.
  assert (Hpos : 0 < length (FunctionSchema.arguments schema)).
  { destruct (FunctionSchema.arguments schema); [congruence | simpl; lia]. }
  destruct (back st) as [v|] eqn:Hb.
  2:{ apply back_None_nil in Hb. subst st.
      rewrite adapter_empty_stack by assumption. simpl. exact Hpos. }
  apply back_Some_app in Hb.
  remember (removelast st) as st' eqn:Est'. clear Est'. subst st.
  destruct (isNone v || isTensorList v) eqn:Hv.
  2:{ apply orb_false_elim in Hv. destruct Hv as [Hn Ht].
      rewrite adapter_type_mismatch by assumption. simpl.
      split; [reflexivity | right; now exists v]. }
  set (n := length (FunctionSchema.arguments schema) - 1).
  destruct (Nat.lt_ge_cases (length st') n) as [Hlt | Hge].
  - rewrite adapter_short_stack by assumption. simpl.
    rewrite length_app. simpl. fold n in Hlt. lia.
  - assert (Hsplit : exists rest inputs,
               st' = rest ++ inputs /\ length inputs = n).
    { exists (firstn (length st' - n) st'), (skipn (length st' - n) st').
      split; [symmetry; apply firstn_skipn | rewrite length_skipn; lia]. }
    destruct Hsplit as (rest & inputs & -> & Hlen).
    rewrite <- app_assoc.
    rewrite adapter_runs by assumption. cbv zeta.
    destruct (call_op schema inputs _) as [e|outs] eqn:Hcall; simpl.
    + exists rest, inputs, v. rewrite app_assoc. auto.
    + exists rest, inputs, v, outs. rewrite app_assoc. auto.
Qed.

(** C8. Every signature produced by the schema builder ends with the
    synthetic parameter.  And in every call that passes both assertions on
    a stack that holds every argument, the operator is constructed from
    exactly the [num_inputs] = (parameter count - 1) values that lie under
    the top of the stack, in stack (declaration) order: the value popped for
    the synthetic parameter is not among the inputs, it only determines the
    output vector. *)
Theorem C8_synthetic_value_is_not_an_input :
  (forall (OperatorName : string) (inputs outputs : list Argument.t),
     let schema := make_function_schema_for_c10 OperatorName inputs outputs in
     back (FunctionSchema.arguments schema)
     = Some preallocated_outputs_argument
     /\ removelast (FunctionSchema.arguments schema) = inputs
     /\ Argument.name preallocated_outputs_argument
        = PREALLOCATED_OUTPUT_ARGNAME)
  /\
  (forall (Op : Type) (OpImpl : Caffe2Operator Op)
          (schema : FunctionSchema.t) (rest inputs : Stack) (v : IValue)
          (log : list Invocation),
     accepts schema = true ->
     length inputs = length (FunctionSchema.arguments schema) - 1 ->
     isNone v || isTensorList v = true ->
     let r := adapter schema (_call_caffe2_op Op)
                (mkMachine (rest ++ inputs ++ [v]) log) in
     let outputs := output_buffer_set schema v in
     let log' := log ++ [mkInvocation schema inputs outputs] in
     invocations (snd r) = log'
     /\ r = match construct schema inputs outputs with
            | inl e => (Threw e, mkMachine rest log')
            | inr op =>
                match Run op with
                | inl e => (Threw e, mkMachine rest log')
                | inr op' =>
                    (Returned tt,
                     mkMachine
                       (rest ++ map IVTensor (move_newstyle_outputs op'))
                       log')
                end
            end).
Proof.
  split.
  - intros OperatorName inputs outputs schema. subst schema.
    unfold make_function_schema_for_c10; simpl.
    fold preallocated_outputs_argument.
    rewrite back_app_last, removelast_last. auto.
  - intros Op OpImpl schema rest inputs v log Ha Hin Hv. cbv zeta.
    rewrite adapter_runs by assumption.
    unfold _call_caffe2_op; simpl.
    destruct (construct schema inputs _) as [e|op]; [now split|].
    destruct (Run op) as [e|op']; now split.
Qed.

End BridgeProperties.

(** ** The properties on concrete calls *)

(** The spec's scenario: the stack holds [tensor1; 5; None]; the operator
    yields [tensor2]; the stack ends as [tensor2] (here over one unrelated
    value below the arguments). *)
Lemma C1_net_stack_effect_witness :
  let before :=
    mkMachine ([IVBool true] ++ [IVTensor tensor1; IVInt 5] ++ [IVNone]) [] in
  let r :=
    _call_caffe2_op_from_c10 exact_type_test example_schema fresh_result_op
      before in
  fst r = Returned tt
  /\ invocations (snd r)
     = [] ++ [mkInvocation example_schema [IVTensor tensor1; IVInt 5]
                (output_buffer_set example_schema IVNone)]
  /\ stack (snd r) = [IVBool true] ++ map IVTensor [tensor2]
  /\ length (stack (snd r)) = length [IVBool true] + 1
  /\ (Z.of_nat (length (stack (snd r))) - Z.of_nat (length (stack before))
      = Z.of_nat 1 - Z.of_nat 2 - 1)%Z.
Proof.
  apply (C1_net_stack_effect exact_type_test example_schema fresh_result_op
           [IVBool true] [IVTensor tensor1; IVInt 5] IVNone [] [tensor2] 2 1);
    reflexivity.
Defined.

(** C1 as stated fails: the call below passes both assertions with k = 2
    inputs and m = 1 declared result, yet the invoker returns two tensors
    and both are pushed, so the stack height changes by -1 and not by
    m - k - 1 = -2. *)
Lemma C1_counterexample_overproducing_invoker :
  let before := mkMachine [IVTensor tensor1; IVInt 5; IVNone] [] in
  let r :=
    _call_caffe2_op_from_c10 exact_type_test example_schema overproducing_op
      before in
  length (FunctionSchema.arguments example_schema) = 2 + 1
  /\ length (FunctionSchema.returns example_schema) = 1
  /\ fst r = Returned tt
  /\ stack (snd r) = [IVTensor tensor2; IVTensor tensor3]
  /\ length (stack (snd r)) <> 0 + 1
  /\ (Z.of_nat (length (stack (snd r))) - Z.of_nat (length (stack before))
      <> Z.of_nat 1 - Z.of_nat 2 - 1)%Z.
Proof.
  cbv zeta. repeat split; try reflexivity; vm_compute; discriminate.
Qed.

(** The spec's negative scenario: a signature without the synthetic
    trailing parameter (its last parameter is the integer [B]). *)
Lemma C3_misregistered_schema_asserts_witness :
  _call_caffe2_op_from_c10 exact_type_test misregistered_schema
    fresh_result_op (mkMachine [IVTensor tensor1; IVInt 5] [])
  = (AssertFailed, mkMachine [IVTensor tensor1; IVInt 5] []).
Proof.
  apply (C3_misregistered_schema_asserts exact_type_test misregistered_schema).
  right. exists arg_B. split; reflexivity.
Defined.

(** C3 as stated fails: the header asks a subtype test, not an equality
    test.  Under a test with optional subtyping, the last parameter of the
    signature below has type list of tensors, which is not the type optional
    list of tensors, yet the first assertion passes and the call runs the
    invoker and returns. *)
Lemma C3_counterexample_subtype_of_optional :
  let before := mkMachine [IVTensor tensor1; IVTensorList [bufX]] [] in
  let r :=
    _call_caffe2_op_from_c10 optional_lifting_type_test list_tailed_schema
      fresh_result_op before in
  back (FunctionSchema.arguments list_tailed_schema) = Some arg_L
  /\ Argument.type arg_L <> OptionalType (ListType TensorType)
  /\ r = (Returned tt,
          mkMachine [IVTensor tensor2]
            [mkInvocation list_tailed_schema [IVTensor tensor1] [bufX]])
  /\ fst r <> AssertFailed
  /\ stack (snd r) <> stack before.
Proof.
  cbv zeta. repeat split; try reflexivity; vm_compute; discriminate.
Qed.

(** One result declared: None resolves to one undefined tensor; a list of
    two tensors is taken as it is. *)
Lemma C4_output_buffer_set_resolution_witness :
  invocations
    (snd (_call_caffe2_op_from_c10 exact_type_test example_schema
            fresh_result_op
            (mkMachine ([] ++ [IVTensor tensor1; IVInt 5] ++ [IVNone]) [])))
  = [mkInvocation example_schema [IVTensor tensor1; IVInt 5]
       [UndefinedTensor]]
  /\
  invocations
    (snd (_call_caffe2_op_from_c10 exact_type_test example_schema
            fresh_result_op
            (mkMachine
               ([] ++ [IVTensor tensor1; IVInt 5]
                   ++ [IVTensorList [bufX; tensor3]]) [])))
  = [mkInvocation example_schema [IVTensor tensor1; IVInt 5]
       [bufX; tensor3]].
Proof.
  destruct (C4_output_buffer_set_resolution exact_type_test example_schema
              fresh_result_op [] [IVTensor tensor1; IVInt 5] []
              eq_refl eq_refl) as [[Hnone _] Hlist].
  split; [exact Hnone | exact (Hlist [bufX; tensor3])].
Defined.

(** An integer where the preallocated outputs are expected. *)
Lemma C5_type_mismatch_asserts_witness :
  _call_caffe2_op_from_c10 exact_type_test example_schema fresh_result_op
    (mkMachine ([IVTensor tensor1; IVInt 5] ++ [IVInt 3]) [])
  = (AssertFailed, mkMachine [IVTensor tensor1; IVInt 5] []).
Proof.
  apply (C5_type_mismatch_asserts exact_type_test example_schema
           fresh_result_op [IVTensor tensor1; IVInt 5] (IVInt 3) []);
    reflexivity.
Defined.

(** The spec's scenario: the stack holds [tensor1; 5; [bufX]]; the operator
    is built over [bufX], returns it, and the stack ends as [bufX]. *)
Lemma C6_preallocated_outputs_reach_constructor_witness :
  _call_caffe2_op_from_c10 exact_type_test example_schema
    (_call_caffe2_op InPlaceOp)
    (mkMachine ([] ++ [IVTensor tensor1; IVInt 5] ++ [IVTensorList [bufX]]) [])
  = (Returned tt,
     mkMachine [IVTensor bufX]
       [mkInvocation example_schema [IVTensor tensor1; IVInt 5] [bufX]]).
Proof.
  destruct (C6_preallocated_outputs_reach_constructor exact_type_test
              InPlaceOp InPlaceOp_operator example_schema
              [] [IVTensor tensor1; IVInt 5] [bufX] []
              eq_refl eq_refl eq_refl) as [_ Hrun].
  exact Hrun.
Defined.

(** The in-place operator is built from the two inputs only; the None on
    top of them becomes one undefined output tensor. *)
Lemma C8_synthetic_value_is_not_an_input_witness :
  _call_caffe2_op_from_c10 exact_type_test example_schema
    (_call_caffe2_op InPlaceOp)
    (mkMachine ([] ++ [IVTensor tensor1; IVInt 5] ++ [IVNone]) [])
  = (Returned tt,
     mkMachine [IVTensor UndefinedTensor]
       [mkInvocation example_schema [IVTensor tensor1; IVInt 5]
          [UndefinedTensor]]).
Proof.
  destruct (proj2 (C8_synthetic_value_is_not_an_input exact_type_test)
              InPlaceOp InPlaceOp_operator example_schema
              [] [IVTensor tensor1; IVInt 5] IVNone []
              eq_refl eq_refl eq_refl) as [_ Hrun].
  exact Hrun.
Defined.

(** One result declared, two tensors returned: both are pushed. *)
Lemma C10_pushes_every_returned_tensor_witness :
  let r :=
    _call_caffe2_op_from_c10 exact_type_test example_schema overproducing_op
      (mkMachine ([] ++ [IVTensor tensor1; IVInt 5] ++ [IVNone]) []) in
  fst r = Returned tt
  /\ stack (snd r) = [] ++ map IVTensor [tensor2; tensor3]
  /\ length (stack (snd r)) = length (@nil IValue) + length [tensor2; tensor3].
Proof.
  apply (C10_pushes_every_returned_tensor exact_type_test example_schema
           overproducing_op [] [IVTensor tensor1; IVInt 5] IVNone []
           [tensor2; tensor3]);
    reflexivity.
Defined.

(** ** Further properties: the builder *)

(** X6. The builder loses nothing: two built signatures are equal only when
    the operator names, the input lists and the output lists were equal. *)
Theorem X6_schema_builder_injective :
  forall (n n' : string) (inputs inputs' outputs outputs' : list Argument.t),
    make_function_schema_for_c10 n inputs outputs
    = make_function_schema_for_c10 n' inputs' outputs' ->
    n = n' /\ inputs = inputs' /\ outputs = outputs'.
Proof.
  intros n n' inputs inputs' outputs outputs' H.
  unfold make_function_schema_for_c10 in H.
  injection H as Hname Hargs Hrets.
  apply app_inj_tail in Hargs. destruct Hargs as [Hargs _].
  auto.
Qed.

(** X7. The builder does not look at the names of the inputs: the built
    parameter list has exactly one more parameter named
    "_caffe2_preallocated_outputs" than the input list had.  The reserved
    name is therefore unique in the signature exactly when no input uses
    it. *)
Theorem X7_reserved_name_collision_unchecked :
  forall (OperatorName : string) (inputs outputs : list Argument.t),
    let schema := make_function_schema_for_c10 OperatorName inputs outputs in
    count_named PREALLOCATED_OUTPUT_ARGNAME (FunctionSchema.arguments schema)
    = count_named PREALLOCATED_OUTPUT_ARGNAME inputs + 1
    /\ (count_named PREALLOCATED_OUTPUT_ARGNAME
          (FunctionSchema.arguments schema) = 1
        <-> forall a, In a inputs ->
                      Argument.name a <> PREALLOCATED_OUTPUT_ARGNAME).
Proof.
  intros OperatorName inputs outputs schema. subst schema.
  unfold make_function_schema_for_c10, count_named; simpl.
  rewrite filter_app, length_app. simpl.
  split; [reflexivity|].
  split.
  - intros Hcount a Hin Hname.
    assert (Hmem : In a (filter
                     (fun a0 => String.eqb (Argument.name a0)
                                  PREALLOCATED_OUTPUT_ARGNAME) inputs)).
    { apply filter_In. split; [exact Hin|]. now apply String.eqb_eq. }
    destruct (filter _ inputs); [destruct Hmem | simpl in Hcount; lia].
  - intros Hfree.
    assert (Hnone : filter
                      (fun a0 => String.eqb (Argument.name a0)
                                   PREALLOCATED_OUTPUT_ARGNAME) inputs = []).
    { destruct (filter _ inputs) as [|a l] eqn:Hf; [reflexivity|].
      assert (Hmem : In a (a :: l)) by now left.
      rewrite <- Hf in Hmem. apply filter_In in Hmem.
      destruct Hmem as [Hin Heq]. apply String.eqb_eq in Heq.
      now apply Hfree in Hin. }
    now rewrite Hnone.
Qed.

(** ** Further properties: the adapter *)

Section BridgeComposition.

Variable isSubtypeOf : TypePtr -> TypePtr -> bool.

Local Abbreviation adapter := (_call_caffe2_op_from_c10 isSubtypeOf).
Local Abbreviation accepts := (schema_accepts_preallocated isSubtypeOf).

(** X1. Whatever the name and the descriptor lists, a signature built by
    the builder passes the adapter's first assertion exactly when the type
    test accepts optional list of tensors against itself. *)
Theorem X1_built_schema_passes_first_assertion :
  forall (OperatorName : string) (inputs outputs : list Argument.t),
    accepts (make_function_schema_for_c10 OperatorName inputs outputs)
    = isSubtypeOf (OptionalType (ListType TensorType))
        (OptionalType (ListType TensorType)).
Proof.
  intros OperatorName inputs outputs.
  unfold schema_accepts_preallocated, make_function_schema_for_c10; simpl.
  rewrite back_app_last, length_app; simpl.
  replace (length inputs + 1 =? 0) with false
    by (symmetry; apply Nat.eqb_neq; lia).
  reflexivity.
Qed.

(** X2. End to end: take an entry point whose handle carries the signature
    the builder made from [inputs] and [outputs], and a type test that
    accepts optional list of tensors against itself.  Called on a stack with
    one value per declared input and None on top, it constructs the operator
    from that signature, exactly those values, and one undefined tensor per
    declared output; the call then ends as the operator's life cycle does,
    with the operator's outputs in place of the arguments. *)
Theorem X2_registered_entry_point_end_to_end :
  forall (OpHandle : unit -> OperatorHandle.t)
         (Op : Type) (OpImpl : Caffe2Operator Op) (cache : KernelCache)
         (OperatorName : string) (inputs outputs : list Argument.t)
         (rest args : Stack) (log : list Invocation),
    OperatorHandle.schema (OpHandle tt)
    = make_function_schema_for_c10 OperatorName inputs outputs ->
    isSubtypeOf (OptionalType (ListType TensorType))
      (OptionalType (ListType TensorType)) = true ->
    length args = length inputs ->
    let schema := make_function_schema_for_c10 OperatorName inputs outputs in
    let fresh := repeat UndefinedTensor (length outputs) in
    let log' := log ++ [mkInvocation schema args fresh] in
    call_caffe2_op_from_c10 isSubtypeOf OpHandle Op cache
      (mkMachine (rest ++ args ++ [IVNone]) log)
    = match construct schema args fresh with
      | inl e => (Threw e, mkMachine rest log')
      | inr op =>
          match Run op with
          | inl e => (Threw e, mkMachine rest log')
          | inr op' =>
              (Returned tt,
               mkMachine (rest ++ map IVTensor (move_newstyle_outputs op'))
                 log')
          end
      end.
Proof.
  intros OpHandle Op OpImpl cache OperatorName inputs outputs rest args log
    Hschema Hrefl Hlen. cbv zeta.
  unfold call_caffe2_op_from_c10. rewrite Hschema.
  rewrite adapter_runs.
  - unfold output_buffer_set, _call_caffe2_op. simpl. rewrite resize_nil.
    destruct (construct _ args _) as [e|op]; [reflexivity|].
    destruct (Run op) as [e|op']; reflexivity.
  - unfold schema_accepts_preallocated, make_function_schema_for_c10; simpl.
    rewrite back_app_last, length_app; simpl.
    replace (length inputs + 1 =? 0) with false
      by (symmetry; apply Nat.eqb_neq; lia).
    exact Hrefl.
  - simpl. rewrite length_app. simpl. lia.
  - reflexivity.
Qed.

(** X3. The call reads and writes only its own arguments: when a call on a
    stack does not run past the bottom of that stack, the same call made
    with further values underneath ends in the same way, makes the same
    invocation, and leaves those values untouched under the same result. *)
Theorem X3_values_below_the_arguments_are_untouched :
  forall (schema : FunctionSchema.t) (call_op : _CallCaffe2OpFunc)
         (below : Stack) (s : Machine),
    fst (adapter schema call_op s) <> Undefined ->
    adapter schema call_op (frame below s)
    = (fst (adapter schema call_op s),
       frame below (snd (adapter schema call_op s))).
Proof.
  intros schema call_op below [st log] Hdef. unfold frame at 1. simpl.
  destruct (accepts schema) eqn:Ha.
  2:{ rewrite !adapter_rejects by assumption. reflexivity. }
  destruct (back st) as [v|] eqn:Hb.
  2:{ apply back_None_nil in Hb. subst st.
      rewrite adapter_empty_stack in Hdef by assumption.
      now elim Hdef. }
  apply back_Some_app in Hb.
  remember (removelast st) as st' eqn:Est'. clear Est'. subst st.
  destruct (isNone v || isTensorList v) eqn:Hv.
  2:{ apply orb_false_elim in Hv. destruct Hv as [Hn Ht].
      rewrite app_assoc.
      rewrite !adapter_type_mismatch by assumption. reflexivity. }
  destruct (Nat.lt_ge_cases (length st')
              (length (FunctionSchema.arguments schema) - 1)) as [Hlt | Hge].
  - rewrite adapter_short_stack in Hdef by assumption. now elim Hdef.
  - assert (Hsplit : exists rest inputs,
               st' = rest ++ inputs /\
               length inputs = length (FunctionSchema.arguments schema) - 1).
    { exists (firstn (length st'
                      - (length (FunctionSchema.arguments schema) - 1)) st'),
             (skipn (length st'
                     - (length (FunctionSchema.arguments schema) - 1)) st').
      split; [symmetry; apply firstn_skipn | rewrite length_skipn; lia]. }
    destruct Hsplit as (rest & inputs & -> & Hlen).
    rewrite <- (app_assoc rest inputs [v]).
    rewrite (app_assoc below rest (inputs ++ [v])).
    rewrite !adapter_runs by assumption. cbv zeta.
    destruct (call_op schema inputs _) as [e|outs]; unfold frame; simpl.
    + reflexivity.
    + now rewrite app_assoc.
Qed.

(** X4. The push loop and [pop(n)] are inverse to each other: after a call
    that returns, popping as many values as the invoker returned tensors
    gives exactly those tensors, in the order of the returned vector, and
    leaves the stack as it was under the arguments of the call. *)
Theorem X4_results_pop_in_returned_order :
  forall (schema : FunctionSchema.t) (call_op : _CallCaffe2OpFunc)
         (rest inputs : Stack) (v : IValue) (log : list Invocation)
         (outs : list Tensor),
    accepts schema = true ->
    length inputs = length (FunctionSchema.arguments schema) - 1 ->
    isNone v || isTensorList v = true ->
    call_op schema inputs (output_buffer_set schema v) = inr outs ->
    (adapter schema call_op ;;; pop_n (length outs))
      (mkMachine (rest ++ inputs ++ [v]) log)
    = (Returned (map IVTensor outs),
       mkMachine rest
         (log ++ [mkInvocation schema inputs (output_buffer_set schema v)])).
Proof.
  intros schema call_op rest inputs v log outs Ha Hin Hv Hcall.
  unfold bind at 1. rewrite adapter_runs by assumption.
  cbv zeta. rewrite Hcall.
  rewrite <- (length_map IVTensor outs).
  apply pop_n_top.
Qed.

(** X5. Under an accepted signature and on a stack that holds every input,
    a call with None on top and a call with a preallocated list of
    [num_outputs] undefined tensors on top hand the invoker the same
    arguments and end with the same outcome, the same stack and the same
    invocation. *)
Theorem X5_none_is_a_list_of_undefined_tensors :
  forall (schema : FunctionSchema.t) (call_op : _CallCaffe2OpFunc)
         (rest inputs : Stack) (log : list Invocation),
    accepts schema = true ->
    length inputs = length (FunctionSchema.arguments schema) - 1 ->
    let fresh :=
      repeat UndefinedTensor (length (FunctionSchema.returns schema)) in
    let log' := log ++ [mkInvocation schema inputs fresh] in
    let after_none :=
      adapter schema call_op (mkMachine (rest ++ inputs ++ [IVNone]) log) in
    let after_list :=
      adapter schema call_op
        (mkMachine (rest ++ inputs ++ [IVTensorList fresh]) log) in
    after_none = after_list
    /\ invocations (snd after_none) = log'
    /\ after_none
       = match call_op schema inputs fresh with
         | inl e => (Threw e, mkMachine rest log')
         | inr outs =>
             (Returned tt, mkMachine (rest ++ map IVTensor outs) log')
         end.
Proof.
  intros schema call_op rest inputs log Ha Hin. cbv zeta.
  rewrite !adapter_runs by (assumption || reflexivity).
  unfold output_buffer_set; simpl. rewrite resize_nil.
  destruct (call_op schema inputs _) as [e|outs]; auto.
Qed.

(** X8. Calls chain through the stack: after a call that returns, pushing
    None and calling a second adapter whose signature declares as many
    inputs as the first invoker returned tensors hands exactly those tensors,
    in order, to the second invoker, together with one undefined tensor per
    declared result; the second call's outputs end up on what lay under the
    first call's arguments. *)
Theorem X8_calls_chain_through_the_stack :
  forall (schema1 schema2 : FunctionSchema.t)
         (op1 op2 : _CallCaffe2OpFunc)
         (rest inputs : Stack) (v : IValue) (log : list Invocation)
         (outs1 : list Tensor),
    accepts schema1 = true ->
    accepts schema2 = true ->
    length inputs = length (FunctionSchema.arguments schema1) - 1 ->
    isNone v || isTensorList v = true ->
    op1 schema1 inputs (output_buffer_set schema1 v) = inr outs1 ->
    length outs1 = length (FunctionSchema.arguments schema2) - 1 ->
    let inputs2 := map IVTensor outs1 in
    let fresh2 :=
      repeat UndefinedTensor (length (FunctionSchema.returns schema2)) in
    let log2 :=
      (log ++ [mkInvocation schema1 inputs (output_buffer_set schema1 v)])
      ++ [mkInvocation schema2 inputs2 fresh2] in
    (adapter schema1 op1 ;;; push IVNone ;;; adapter schema2 op2)
      (mkMachine (rest ++ inputs ++ [v]) log)
    = match op2 schema2 inputs2 fresh2 with
      | inl e => (Threw e, mkMachine rest log2)
      | inr outs2 => (Returned tt, mkMachine (rest ++ map IVTensor outs2) log2)
      end.
Proof.
  intros schema1 schema2 op1 op2 rest inputs v log outs1
    Ha1 Ha2 Hin Hv Hcall Hlen2. cbv zeta.
  unfold bind at 1. rewrite adapter_runs by assumption.
  cbv zeta. rewrite Hcall.
  unfold bind, push. simpl.
  rewrite <- app_assoc.
  rewrite adapter_runs;
    [ | assumption | now rewrite length_map | reflexivity ].
  cbv zeta. unfold output_buffer_set. simpl. rewrite resize_nil.
  reflexivity.
Qed.

End BridgeComposition.

(** ** The further properties on concrete calls *)

(** A handle that carries the signature built for inputs [A; B] and
    output [C], as registration would bind it. *)
Lemma X2_registered_entry_point_end_to_end_witness :
  call_caffe2_op_from_c10 exact_type_test
    (fun _ => OperatorHandle.mk example_schema) InPlaceOp
    (KernelCacheState 0)
    (mkMachine ([IVBool true] ++ [IVTensor tensor1; IVInt 5] ++ [IVNone]) [])
  = (Returned tt,
     mkMachine [IVBool true; IVTensor UndefinedTensor]
       [mkInvocation example_schema [IVTensor tensor1; IVInt 5]
          [UndefinedTensor]]).
Proof.
  exact (X2_registered_entry_point_end_to_end exact_type_test
           (fun _ => OperatorHandle.mk example_schema)
           InPlaceOp InPlaceOp_operator (KernelCacheState 0)
           "Op" [arg_A; arg_B] [arg_C]
           [IVBool true] [IVTensor tensor1; IVInt 5] []
           eq_refl eq_refl eq_refl).
Defined.

(** The scenario call, made over one unrelated value. *)
Lemma X3_values_below_the_arguments_are_untouched_witness :
  _call_caffe2_op_from_c10 exact_type_test example_schema fresh_result_op
    (frame [IVBool true]
       (mkMachine [IVTensor tensor1; IVInt 5; IVNone] []))
  = (Returned tt,
     mkMachine [IVBool true; IVTensor tensor2]
       [mkInvocation example_schema [IVTensor tensor1; IVInt 5]
          [UndefinedTensor]]).
Proof.
  refine (eq_trans
            (X3_values_below_the_arguments_are_untouched exact_type_test
               example_schema fresh_result_op [IVBool true]
               (mkMachine [IVTensor tensor1; IVInt 5; IVNone] []) _) _).
  - vm_compute. discriminate.
  - reflexivity.
Defined.

(** Two tensors returned, two values popped back, in the same order. *)
Lemma X4_results_pop_in_returned_order_witness :
  (_call_caffe2_op_from_c10 exact_type_test example_schema overproducing_op
   ;;; pop_n (length [tensor2; tensor3]))
    (mkMachine ([IVBool true] ++ [IVTensor tensor1; IVInt 5] ++ [IVNone]) [])
  = (Returned (map IVTensor [tensor2; tensor3]),
     mkMachine [IVBool true]
       ([] ++ [mkInvocation example_schema [IVTensor tensor1; IVInt 5]
                 (output_buffer_set example_schema IVNone)])).
Proof.
  apply (X4_results_pop_in_returned_order exact_type_test example_schema
           overproducing_op [IVBool true] [IVTensor tensor1; IVInt 5]
           IVNone [] [tensor2; tensor3]);
    reflexivity.
Defined.

(** The scenario call, with None and with a list of one undefined tensor
    on top: the invoker runs in both and the stack ends as [tensor2]. *)
Lemma X5_none_is_a_list_of_undefined_tensors_witness :
  _call_caffe2_op_from_c10 exact_type_test example_schema fresh_result_op
    (mkMachine ([] ++ [IVTensor tensor1; IVInt 5] ++ [IVNone]) [])
  = _call_caffe2_op_from_c10 exact_type_test example_schema fresh_result_op
      (mkMachine
         ([] ++ [IVTensor tensor1; IVInt 5]
             ++ [IVTensorList [UndefinedTensor]]) [])
  /\
  _call_caffe2_op_from_c10 exact_type_test example_schema fresh_result_op
    (mkMachine ([] ++ [IVTensor tensor1; IVInt 5] ++ [IVNone]) [])
  = (Returned tt,
     mkMachine [IVTensor tensor2]
       [mkInvocation example_schema [IVTensor tensor1; IVInt 5]
          [UndefinedTensor]]).
Proof.
  destruct (X5_none_is_a_list_of_undefined_tensors exact_type_test
              example_schema fresh_result_op
              [] [IVTensor tensor1; IVInt 5] [] eq_refl eq_refl)
    as (Hsame & _ & Hrun).
  split; [exact Hsame | exact Hrun].
Defined.

Lemma X6_schema_builder_injective_witness :
  "Op" = "Op" /\ [arg_A; arg_B] = [arg_A; arg_B] /\ [arg_C] = [arg_C].
Proof.
  apply (X6_schema_builder_injective "Op" "Op"
           [arg_A; arg_B] [arg_A; arg_B] [arg_C] [arg_C]).
  reflexivity.
Defined.

(** Inputs [A; B] do not use the reserved name: it occurs once. *)
Lemma X7_reserved_name_collision_unchecked_witness :
  count_named PREALLOCATED_OUTPUT_ARGNAME
    (FunctionSchema.arguments example_schema) = 1.
Proof.
  apply (proj2 (X7_reserved_name_collision_unchecked "Op"
                  [arg_A; arg_B] [arg_C])).
  intros a [<- | [<- | []]]; discriminate.
Defined.

(** The output of the scenario call feeds a one-input, one-output
    operator built over the same stack. *)
Lemma X8_calls_chain_through_the_stack_witness :
  (_call_caffe2_op_from_c10 exact_type_test example_schema fresh_result_op
   ;;; push IVNone
   ;;; _call_caffe2_op_from_c10 exact_type_test
         (make_function_schema_for_c10 "Next" [arg_C] [arg_A])
         (_call_caffe2_op InPlaceOp))
    (mkMachine ([IVBool true] ++ [IVTensor tensor1; IVInt 5] ++ [IVNone]) [])
  = (Returned tt,
     mkMachine [IVBool true; IVTensor UndefinedTensor]
       [mkInvocation example_schema [IVTensor tensor1; IVInt 5]
          [UndefinedTensor];
        mkInvocation (make_function_schema_for_c10 "Next" [arg_C] [arg_A])
          [IVTensor tensor2] [UndefinedTensor]]).
Proof.
  exact (X8_calls_chain_through_the_stack exact_type_test
           example_schema
           (make_function_schema_for_c10 "Next" [arg_C] [arg_A])
           fresh_result_op (_call_caffe2_op InPlaceOp)
           [IVBool true] [IVTensor tensor1; IVInt 5] IVNone [] [tensor2]
           eq_refl eq_refl eq_refl eq_refl eq_refl eq_refl).
Defined.
